(** * submit-simulation.py: a shallow embedding and its properties

    The script is a linear pipeline: parse [sys.argv], build the project,
    ask the simulation binary for its file suffix, render a SLURM job
    script, write it under [jobs/] and submit it.

    Python [str] and [bytes] values are modelled as [string] (a list of
    8-bit characters); a [str] is represented by its UTF-8 encoding, so
    that [bytes.decode("utf-8")] is the identity on well-formed input and
    raises on the rest.  The outside world (sub-processes, file system,
    host name) is an oracle record; the script is a program in a small
    writer/exception monad that logs every effect it performs. *)

From Stdlib Require Import List String Ascii ZArith NArith Bool Lia.
From Stdlib Require Import DecimalString.
Import ListNotations.

Set Implicit Arguments.

Local Open Scope list_scope.
Local Open Scope string_scope.

(** ** Python string and list primitives *)

Module Py.

(** Exceptions the script can raise and never catches. *)
Inductive exn : Type :=
| SystemExit (code : Z)
| IndexError
| ValueError
| CalledProcessError (returncode : Z)
| OSError
| UnicodeDecodeError.

Definition res (A : Type) : Type := (exn + A)%type.

(** [sep.join(l)] *)
Fixpoint join (sep : string) (l : list string) : string :=
  match l with
  | [] => ""
  | x :: rest =>
      match rest with
      | [] => x
      | _ :: _ => x ++ sep ++ join sep rest
      end
  end.

(** [s.split(c)] for a one-character separator [c]: every occurrence of
    [c] ends a field, empty fields are kept, the result is never empty. *)
Fixpoint split (c : ascii) (s : string) : list string :=
  match s with
  | EmptyString => [EmptyString]
  | String a s' =>
      if Ascii.eqb a c then EmptyString :: split c s'
      else match split c s' with
           | [] => [String a EmptyString]
           | w :: ws => String a w :: ws
           end
  end.

(** [l[:-1]] *)
Definition drop_last (A : Type) (l : list A) : list A := removelast l.

(** [l[-1]] *)
Fixpoint last_item (A : Type) (l : list A) : res A :=
  match l with
  | [] => inl IndexError
  | x :: rest =>
      match rest with
      | [] => inr x
      | _ :: _ => last_item rest
      end
  end.

(** [l[i]] for a non-negative literal index [i] *)
Definition item (A : Type) (l : list A) (i : nat) : res A :=
  match nth_error l i with
  | Some x => inr x
  | None => inl IndexError
  end.

(** [l[i:]] never raises *)
Definition slice_from (A : Type) (i : nat) (l : list A) : list A := skipn i l.

(** [x in l] on a list of strings *)
Definition contains_item (x : string) (l : list string) : bool :=
  existsb (String.eqb x) l.

(** [l.remove(x)]: deletes the first item equal to [x], [ValueError] when
    there is none. *)
Fixpoint remove (x : string) (l : list string) : res (list string) :=
  match l with
  | [] => inl ValueError
  | y :: rest =>
      if String.eqb x y then inr rest
      else match remove x rest with
           | inl e => inl e
           | inr rest' => inr (y :: rest')
           end
  end.

(** [needle in hay] on strings: [needle] occurs as a contiguous block *)
Fixpoint contains_str (needle hay : string) : bool :=
  if String.prefix needle hay then true
  else match hay with
       | EmptyString => false
       | String _ hay' => contains_str needle hay'
       end.

(** The six bytes [bytes.split()] and [bytes.isspace()] treat as
    whitespace: space, tab, newline, vertical tab, form feed, return. *)
Definition is_space (a : ascii) : bool :=
  let n := nat_of_ascii a in
  Nat.eqb n 32 || (Nat.leb 9 n && Nat.leb n 13).

(** [b.split()] without argument: maximal runs of non-whitespace bytes. *)
Fixpoint bytes_split (s : string) : list string :=
  match s with
  | EmptyString => []
  | String a s' =>
      if is_space a then bytes_split s'
      else match s' with
           | EmptyString => [String a EmptyString]
           | String b _ =>
               if is_space b then String a EmptyString :: bytes_split s'
               else match bytes_split s' with
                    | [] => [String a EmptyString]
                    | w :: ws => String a w :: ws
                    end
           end
  end.

(** [str(v)] for the two kinds of option value the script formats *)
Inductive value : Type :=
| VStr (s : string)
| VInt (z : Z).

Definition str (v : value) : string :=
  match v with
  | VStr s => s
  | VInt z => NilZero.string_of_int (Z.to_int z)
  end.

(** [template.format(args...)] restricted to automatically numbered [{}]
    fields: each [{}] takes the next argument ([IndexError] when the
    arguments run out, surplus arguments are ignored); a brace that does
    not belong to [{}] is a [ValueError]. *)
Fixpoint format (template : string) (args : list string) : res string :=
  match template with
  | EmptyString => inr EmptyString
  | String a t' =>
      if Ascii.eqb a "{" then
        match t' with
        | String b t'' =>
            if Ascii.eqb b "}" then
              match args with
              | [] => inl IndexError
              | x :: args' =>
                  match format t'' args' with
                  | inl e => inl e
                  | inr r => inr (x ++ r)
                  end
              end
            else inl ValueError
        | EmptyString => inl ValueError
        end
      else if Ascii.eqb a "}" then inl ValueError
      else match format t' args with
           | inl e => inl e
           | inr r => inr (String a r)
           end
  end.

(** [b.decode("utf-8")]: the strict decoder accepts exactly the well-formed
    byte sequences of the Unicode standard (no overlong forms, no
    surrogates, nothing above U+10FFFF). *)
Definition in_range (lo hi : nat) (a : ascii) : bool :=
  let n := nat_of_ascii a in Nat.leb lo n && Nat.leb n hi.

Definition continuation (a : ascii) : bool := in_range 128 191 a.

Definition second_of_three (lead b : ascii) : bool :=
  if Nat.eqb (nat_of_ascii lead) 224 then in_range 160 191 b
  else if Nat.eqb (nat_of_ascii lead) 237 then in_range 128 159 b
  else continuation b.

Definition second_of_four (lead b : ascii) : bool :=
  if Nat.eqb (nat_of_ascii lead) 240 then in_range 144 191 b
  else if Nat.eqb (nat_of_ascii lead) 244 then in_range 128 143 b
  else continuation b.

Fixpoint utf8_valid (s : string) : bool :=
  match s with
  | EmptyString => true
  | String a s1 =>
      if in_range 0 127 a then utf8_valid s1
      else
        match s1 with
        | EmptyString => false
        | String b s2 =>
            if in_range 194 223 a then continuation b && utf8_valid s2
            else
              match s2 with
              | EmptyString => false
              | String c s3 =>
                  if in_range 224 239 a then
                    second_of_three a b && continuation c && utf8_valid s3
                  else
                    match s3 with
                    | EmptyString => false
                    | String d s4 =>
                        in_range 240 244 a && second_of_four a b
                        && continuation c && continuation d && utf8_valid s4
                    end
              end
        end
  end.

Definition decode_utf8 (b : string) : res string :=
  if utf8_valid b then inr b else inl UnicodeDecodeError.

End Py.

(** ** Effects

    Every interaction with the outside is logged as an [event], in program
    order.  A computation is the log it produced together with either a
    value or the exception that stopped it. *)

Inductive event : Type :=
| Print (text : string)
| Call (argv : list string)
| CheckOutputShell (cmd : string)
| IsDir (path : string)
| MakeDirs (path : string)
| WriteFile (path text : string)
| GetFqdn.

Definition M (A : Type) : Type := (list event * Py.res A)%type.

Definition ret (A : Type) (a : A) : M A := ([], inr a).

Definition raise (A : Type) (e : Py.exn) : M A := ([], inl e).

Definition bind (A B : Type) (m : M A) (f : A -> M B) : M B :=
  match m with
  | (t, inl e) => (t, inl e)
  | (t, inr a) => let (t', r) := f a in ((t ++ t')%list, r)
  end.

Definition lift (A : Type) (r : Py.res A) : M A := ([], r).

Definition emit (e : event) : M unit := ([e], inr tt).

Notation "x <- m ;; k" := (bind m (fun x => k))
  (at level 61, m at next level, right associativity).
Notation "m ;;; k" := (bind m (fun _ => k))
  (at level 61, right associativity).

(** What the outside answers.  [subprocess.call(argv)] either gets the
    child's return code or cannot start the child at all, in which case
    [Popen] raises [OSError]; a shell command line likewise. *)
Inductive started : Type :=
| Returned (returncode : Z)
| NotStarted.

Inductive captured : Type :=
| Output (returncode : Z) (stdout : string)
| ShellNotStarted.

Record world : Type := World {
  run_argv : list string -> started;
  run_shell : string -> captured;
  is_dir : string -> bool;
  makedirs_ok : string -> bool;
  write_ok : string -> bool;
  fqdn : string
}.

Section Primitives.

Variable w : world.

(** [print(a, b, ...)]: the arguments separated by one space, then a
    newline. *)
Definition nl : string := String "010"%char EmptyString.

Definition print (args : list string) : M unit :=
  emit (Print (Py.join " " args ++ nl)).

(** [subprocess.call(argv)] *)
Definition subprocess_call (argv : list string) : M Z :=
  emit (Call argv) ;;;
  match run_argv w argv with
  | Returned rc => ret rc
  | NotStarted => raise _ Py.OSError
  end.

(** [subprocess.check_output(cmd, shell = True)] *)
Definition check_output_shell (cmd : string) : M string :=
  emit (CheckOutputShell cmd) ;;;
  match run_shell w cmd with
  | Output rc out =>
      if Z.eqb rc 0 then ret out else raise _ (Py.CalledProcessError rc)
  | ShellNotStarted => raise _ Py.OSError
  end.

(** [os.path.isdir(path)] *)
Definition os_path_isdir (path : string) : M bool :=
  emit (IsDir path) ;;; ret (is_dir w path).

(** [os.makedirs(path)] *)
Definition os_makedirs (path : string) : M unit :=
  emit (MakeDirs path) ;;;
  if makedirs_ok w path then ret tt else raise _ Py.OSError.

(** [with open(path, "w") as f: f.write(text)] *)
Definition write_file (path text : string) : M unit :=
  emit (WriteFile path text) ;;;
  if write_ok w path then ret tt else raise _ Py.OSError.

(** [socket.getfqdn()] *)
Definition socket_getfqdn : M string :=
  emit GetFqdn ;;; ret (fqdn w).

End Primitives.

(** ** The script *)

Definition whide_flag : string := "whide".
Definition mkfac : string := "mkfac.py".
Definition job_dir : string := "jobs".
Definition simulate : string := "simulate.exe".

(** The usage branch.  [.format] binds tighter than [+], so it is applied
    to the second literal only, and [whide_flag] is a second argument of
    [print]. *)
Definition usage (argv : list string) : M unit :=
  prog <- lift (Py.item argv 0) ;;
  tail <- lift (Py.format " [simulation arguments]" [prog]) ;;
  print ["usage: {} [{}] walltime_in_hours" ++ tail; whide_flag] ;;;
  raise _ (Py.SystemExit 1).

(** [whide = whide_flag in sys.argv; if whide: sys.argv.remove(whide_flag)] *)
Definition strip_flag (argv : list string) : Py.res (bool * list string) :=
  let whide := Py.contains_item whide_flag argv in
  if whide then
    match Py.remove whide_flag argv with
    | inl e => inl e
    | inr argv' => inr (whide, argv')
    end
  else inr (whide, argv).

Record inputs : Type := Inputs {
  whide : bool;
  walltime_in_hours : string;
  sim_args : list string
}.

(** "process inputs" *)
Definition process_inputs (argv : list string) : M inputs :=
  (if Nat.ltb (List.length argv) 2 then usage argv else ret tt) ;;;
  fa <- lift (strip_flag argv) ;;
  let (whide, argv) := fa in
  walltime_in_hours <- lift (Py.item argv 1) ;;
  let sim_args := Py.slice_from 2 argv in
  ret (Inputs whide walltime_in_hours sim_args).

(** "before proceeding further, build the project" *)
Definition build_argv (whide : bool) : list string :=
  ("./" ++ mkfac) :: (if whide then [whide_flag] else []).

Definition build (w : world) (whide : bool) : M unit :=
  print ["building project"] ;;;
  subprocess_call w (build_argv whide) ;;;
  ret tt.

(** "determine simulation file basename" *)
Definition suffix_cmd (sim_args : list string) : string :=
  "./simulate.exe --suffix " ++ Py.join " " sim_args.

Definition suffix_of_output (out : string) : Py.res string :=
  match Py.last_item (Py.bytes_split out) with
  | inl e => inl e
  | inr token => Py.decode_utf8 token
  end.

Definition basename_of (suffix : string) : string :=
  "network" ++ Py.join "." (Py.drop_last (Py.split "." suffix)).

Definition job_file_of (basename : string) : Py.res string :=
  Py.format "{}/{}.sh" [job_dir; basename].

(** "set batch options" *)
Definition options (basename walltime_in_hours : string)
  : list (string * Py.value) :=
  [ ("output", Py.VStr (basename ++ ".out"));
    ("error", Py.VStr (basename ++ ".err"));
    ("time", Py.VStr (walltime_in_hours ++ ":00:00"));
    ("nodes", Py.VInt 1);
    ("ntasks", Py.VInt 1);
    ("ntasks-per-node", Py.VInt 1) ].

(** "construct and write job file": the loop over [options] *)
Fixpoint add_options (opts : list (string * Py.value)) (job_text : string)
  : Py.res string :=
  match opts with
  | [] => inr job_text
  | option :: rest =>
      match Py.format ("#SBATCH --{} {}" ++ nl)
                      [fst option; Py.str (snd option)] with
      | inl e => inl e
      | inr line => add_options rest (job_text ++ line)
      end
  end.

Definition job_text (basename walltime_in_hours : string)
  (sim_args : list string) : Py.res string :=
  match add_options (options basename walltime_in_hours)
                    ("#!/usr/bin/env sh" ++ nl) with
  | inl e => inl e
  | inr text =>
      let text := text ++ nl in
      match Py.format "./{} " [simulate] with
      | inl e => inl e
      | inr invocation =>
          inr (text ++ ((invocation ++ Py.join " " sim_args) ++ nl))
      end
  end.

Definition write_job (w : world) (job_file text : string) : M unit :=
  present <- os_path_isdir w job_dir ;;
  (if negb present then os_makedirs w job_dir else ret tt) ;;;
  write_file w job_file text.

Definition submit_cmd_of (host : string) : string :=
  if Py.contains_str "colorado.edu" host then "sbatch" else "sh".

Definition submit (w : world) (job_file : string) : M unit :=
  host <- socket_getfqdn w ;;
  let submit_cmd := submit_cmd_of host in
  subprocess_call w [submit_cmd; job_file] ;;;
  ret tt.

(** Everything after the build, which hands nothing on to it. *)
Definition after_build (w : world) (walltime_in_hours : string)
  (sim_args : list string) : M unit :=
  out <- check_output_shell w (suffix_cmd sim_args) ;;
  suffix <- lift (suffix_of_output out) ;;
  let basename := basename_of suffix in
  job_file <- lift (job_file_of basename) ;;
  text <- lift (job_text basename walltime_in_hours sim_args) ;;
  write_job w job_file text ;;;
  submit w job_file.

(** The whole script, top to bottom. *)
Definition main (w : world) (argv : list string) : M unit :=
  i <- process_inputs argv ;;
  build w (whide i) ;;;
  after_build w (walltime_in_hours i) (sim_args i).

(** The status the interpreter exits with: 0 at the end of the script,
    the code of a [SystemExit], 1 for any other uncaught exception. *)
Definition exit_status (A : Type) (m : M A) : Z :=
  match snd m with
  | inr _ => 0
  | inl (Py.SystemExit code) => code
  | inl _ => 1
  end.

Definition trace (A : Type) (m : M A) : list event := fst m.

Definition is_write (e : event) : bool :=
  match e with WriteFile _ _ => true | _ => false end.

Definition is_side_effect (e : event) : bool :=
  match e with Print _ => false | _ => true end.

(** A host where everything works, used to run the script on examples. *)
Definition cluster : world :=
  World (fun _ => Returned 0)
        (fun _ => Output 0 ("suffix: foo.bar.net" ++ nl))
        (fun _ => false) (fun _ => true) (fun _ => true)
        "login11.rc.colorado.edu".

(** ** Vocabulary of the statements *)

(** [has_char c s]: the character [c] occurs in [s]. *)
Fixpoint has_char (c : ascii) (s : string) : bool :=
  match s with
  | EmptyString => false
  | String a s' => Ascii.eqb a c || has_char c s'
  end.

(** [all_chars p s]: every character of [s] satisfies [p]. *)
Fixpoint all_chars (p : ascii -> bool) (s : string) : bool :=
  match s with
  | EmptyString => true
  | String a s' => p a && all_chars p s'
  end.

(** A whitespace-delimited token: not empty, no whitespace inside. *)
Definition is_token (t : string) : bool :=
  negb (String.eqb t "") && all_chars (fun a => negb (Py.is_space a)) t.

Definition blank (s : string) : bool := all_chars Py.is_space s.

(** The text before a token: nothing, or something ending in whitespace. *)
Fixpoint ends_blank (s : string) : bool :=
  match s with
  | EmptyString => true
  | String a s' =>
      match s' with
      | EmptyString => Py.is_space a
      | String _ _ => ends_blank s'
      end
  end.

(** The error the suffix query ends in, if any. *)
Definition suffix_query_error (w : world) (cmd : string) : option Py.exn :=
  match run_shell w cmd with
  | ShellNotStarted => Some Py.OSError
  | Output rc out =>
      if Z.eqb rc 0 then
        match Py.bytes_split out with
        | [] => Some Py.IndexError
        | _ :: _ => None
        end
      else Some (Py.CalledProcessError rc)
  end.

Definition job_path (basename : string) : string :=
  job_dir ++ "/" ++ basename ++ ".sh".

(** The lines of the job script, each to be ended by a newline. *)
Definition job_lines (basename walltime_in_hours : string)
  (sim_args : list string) : list string :=
  [ "#!/usr/bin/env sh";
    "#SBATCH --output " ++ basename ++ ".out";
    "#SBATCH --error " ++ basename ++ ".err";
    "#SBATCH --time " ++ walltime_in_hours ++ ":00:00";
    "#SBATCH --nodes 1";
    "#SBATCH --ntasks 1";
    "#SBATCH --ntasks-per-node 1";
    "";
    "./simulate.exe " ++ Py.join " " sim_args ].

Definition rendered (basename h : string) (args : list string) : string :=
  Py.join nl (job_lines basename h args) ++ nl.

(** Hosts on which one step goes wrong. *)
Definition silent_simulation : world :=
  World (run_argv cluster) (fun _ => Output 0 "")
        (is_dir cluster) (makedirs_ok cluster) (write_ok cluster)
        (fqdn cluster).

Definition failing_simulation : world :=
  World (run_argv cluster) (fun _ => Output 127 "")
        (is_dir cluster) (makedirs_ok cluster) (write_ok cluster)
        (fqdn cluster).

Definition no_build_tool : world :=
  World (fun argv =>
           match argv with
           | prog :: _ =>
               if String.eqb prog "./mkfac.py" then NotStarted
               else Returned 0
           | [] => NotStarted
           end)
        (run_shell cluster)
        (is_dir cluster) (makedirs_ok cluster) (write_ok cluster)
        (fqdn cluster).

Definition laptop : world :=
  World (fun _ => Returned 3) (run_shell cluster)
        (fun _ => true) (makedirs_ok cluster) (write_ok cluster)
        "laptop.local".

(** File-system events, and the ones among them a run may log. *)
Definition is_fs (e : event) : bool :=
  match e with
  | IsDir _ | MakeDirs _ | WriteFile _ _ => true
  | _ => false
  end.

Definition is_ascii (a : ascii) : bool := Py.in_range 0 127 a.


(** The number of elements [sys.argv] must have for the walltime to be
    there: program name and walltime, and the marker when it is given. *)
Definition argv_needed (argv : list string) : nat :=
  2 + (if Py.contains_item whide_flag argv then 1 else 0).

(** ** Facts about the string primitives *)

Section StringFacts.

Lemma append_assoc (a b c : string) : (a ++ b) ++ c = a ++ (b ++ c).
Proof.
  induction a as [|x a IH]; simpl; [reflexivity | now rewrite IH].
Qed.

Lemma append_empty_r (a : string) : a ++ "" = a.
Proof.
  induction a as [|x a IH]; simpl; [reflexivity | now rewrite IH].
Qed.

Lemma split_not_nil (c : ascii) (s : string) : Py.split c s <> [].
Proof.
  destruct s as [|a s]; simpl; [discriminate|].
  destruct (Ascii.eqb a c); [discriminate|].
  destruct (Py.split c s); discriminate.
Qed.

Lemma split_no_sep (c : ascii) (s : string) :
  has_char c s = false -> Py.split c s = [s].
Proof.
  induction s as [|a s IH]; simpl; intros H; [reflexivity|].
  apply orb_false_iff in H as [Ha Hs].
  rewrite Ha, (IH Hs). reflexivity.
Qed.

Lemma split_app (c : ascii) (p e : string) :
  Py.split c (p ++ String c e) = (Py.split c p ++ Py.split c e)%list.
Proof.
  induction p as [|a p IH]; simpl.
  - now rewrite Ascii.eqb_refl.
  - destruct (Ascii.eqb a c); rewrite IH; [reflexivity|].
    pose proof (split_not_nil c p) as Hne.
    destruct (Py.split c p); [contradiction | reflexivity].
Qed.

Lemma join_split (c : ascii) (s : string) :
  Py.join (String c "") (Py.split c s) = s.
Proof.
  induction s as [|a s IH]; simpl; [reflexivity|].
  pose proof (split_not_nil c s) as Hne.
  destruct (Ascii.eqb a c) eqn:E.
  - apply Ascii.eqb_eq in E; subst a.
    destruct (Py.split c s) as [|w ws]; [contradiction|].
    simpl in *. now rewrite IH.
  - destruct (Py.split c s) as [|w ws]; [contradiction|].
    destruct ws; simpl in *; now rewrite <- IH.
Qed.

End StringFacts.

(** ** The basename *)

(** C1: the basename is "network" followed by the suffix split on ".",
    its last field dropped, the rest joined with "."; for a suffix
    [p.e] whose last field [e] has no "." this is "network" followed by
    [p], and for a suffix without any "." it is "network" alone. *)
Theorem basename_drops_last_segment :
  (forall s, basename_of s
             = "network" ++ Py.join "." (removelast (Py.split "." s)))
  /\ (forall p e, has_char "." e = false ->
                  Py.split "." (p ++ "." ++ e) = (Py.split "." p ++ [e])%list
                  /\ basename_of (p ++ "." ++ e) = "network" ++ p)
  /\ (forall s, has_char "." s = false ->
                Py.split "." s = [s] /\ basename_of s = "network").
Proof.
  split; [reflexivity|]. split.
  - intros p e He. unfold basename_of, Py.drop_last. simpl.
    rewrite split_app, (split_no_sep _ _ He), removelast_last.
    split; [reflexivity|].
    now rewrite (join_split "." p).
  - intros s Hs. unfold basename_of, Py.drop_last.
    rewrite (split_no_sep _ _ Hs). split; reflexivity.
Qed.

Lemma basename_drops_last_segment_witness :
  (Py.split "." ("foo.bar" ++ "." ++ "net") = (Py.split "." "foo.bar" ++ ["net"])%list
   /\ basename_of ("foo.bar" ++ "." ++ "net") = "network" ++ "foo.bar")
  /\ (Py.split "." "net" = ["net"] /\ basename_of "net" = "network").
Proof.
  split.
  - apply (proj1 (proj2 basename_drops_last_segment) "foo.bar" "net").
    reflexivity.
  - apply (proj2 (proj2 basename_drops_last_segment) "net").
    reflexivity.
Defined.

(** ** The job script *)

Lemma format_sbatch (name v : string) :
  Py.format ("#SBATCH --{} {}" ++ nl) [name; v]
  = inr ("#SBATCH --" ++ name ++ " " ++ v ++ nl).
Proof. reflexivity. Qed.

Lemma job_file_of_eq (basename : string) :
  job_file_of basename = inr (job_dir ++ "/" ++ basename ++ ".sh").
Proof. reflexivity. Qed.

Lemma job_text_rendered (basename h : string) (args : list string) :
  job_text basename h args = inr (rendered basename h args).
Proof.
  unfold job_text, options, add_options.
  rewrite !format_sbatch. cbn [fst snd Py.str].
  change (Py.format "./{} " [simulate]) with (@inr Py.exn _ "./simulate.exe ").
  cbv beta iota. f_equal.
  unfold rendered, job_lines. cbn [Py.join].
  rewrite !append_assoc. reflexivity.
Qed.

(** C2: the rendered job script is the shebang line, the six #SBATCH
    lines output, error, time, nodes, ntasks, ntasks-per-node in this
    order, a blank line and the invocation line with the arguments joined
    by single spaces, each line ended by a newline; the time directive is
    "--time h:00:00". *)
Theorem job_text_exact (basename h : string) (args : list string) :
  job_text basename h args
  = inr (Py.join nl
           [ "#!/usr/bin/env sh";
             "#SBATCH --output " ++ basename ++ ".out";
             "#SBATCH --error " ++ basename ++ ".err";
             "#SBATCH --time " ++ h ++ ":00:00";
             "#SBATCH --nodes 1";
             "#SBATCH --ntasks 1";
             "#SBATCH --ntasks-per-node 1";
             "";
             "./simulate.exe " ++ Py.join " " args ]
         ++ nl).
Proof. exact (job_text_rendered basename h args). Qed.

(** ** Argument parsing *)

Lemma contains_item_In (x : string) (l : list string) :
  Py.contains_item x l = true <-> In x l.
Proof.
  unfold Py.contains_item. rewrite existsb_exists. split.
  - intros [y [Hy E]]. apply String.eqb_eq in E. now subst.
  - intros H. exists x. split; [assumption | apply String.eqb_refl].
Qed.

Lemma remove_first (x : string) (l : list string) :
  In x l ->
  exists l1 l2, l = (l1 ++ x :: l2)%list /\ ~ In x l1
                /\ Py.remove x l = inr (l1 ++ l2)%list.
Proof.
  induction l as [|y l IH]; simpl; [contradiction|].
  intros H. destruct (String.eqb x y) eqn:E.
  - apply String.eqb_eq in E. subst y.
    exists [], l. repeat split; auto.
  - apply String.eqb_neq in E.
    destruct H as [H|H]; [congruence|].
    destruct (IH H) as (l1 & l2 & -> & Hn & ->).
    exists (y :: l1), l2. repeat split; auto.
    intros [?|?]; [congruence | auto].
Qed.

(** C6: when the marker is among the arguments the flag is set and the
    first occurrence, and only it, is deleted, the other arguments
    keeping their order; when it is absent the flag is false and the
    list is unchanged. *)
Theorem strip_flag_removes_one (argv : list string) :
  (In whide_flag argv ->
   exists l1 l2,
     argv = (l1 ++ whide_flag :: l2)%list /\ ~ In whide_flag l1
     /\ strip_flag argv = inr (true, (l1 ++ l2)%list)
     /\ S (count_occ string_dec (l1 ++ l2) whide_flag)
        = count_occ string_dec argv whide_flag)
  /\ (~ In whide_flag argv -> strip_flag argv = inr (false, argv)).
Proof.
  unfold strip_flag. split; intros H.
  - destruct (remove_first _ argv H) as (l1 & l2 & E & Hn & R).
    exists l1, l2. repeat split; auto.
    + apply contains_item_In in H. now rewrite H, R.
    + subst argv. rewrite !count_occ_app. simpl.
      destruct (string_dec whide_flag whide_flag); [lia | congruence].
  - destruct (Py.contains_item whide_flag argv) eqn:E; [|reflexivity].
    apply contains_item_In in E. contradiction.
Qed.

Lemma strip_flag_removes_one_witness :
  (exists l1 l2,
     ["submit-simulation.py"; "5"; "whide"; "alpha"; "whide"]
     = (l1 ++ whide_flag :: l2)%list /\ ~ In whide_flag l1
     /\ strip_flag ["submit-simulation.py"; "5"; "whide"; "alpha"; "whide"]
        = inr (true, (l1 ++ l2)%list)
     /\ S (count_occ string_dec (l1 ++ l2) whide_flag)
        = count_occ string_dec
            ["submit-simulation.py"; "5"; "whide"; "alpha"; "whide"]
            whide_flag)
  /\ strip_flag ["submit-simulation.py"; "5"; "alpha"]
     = inr (false, ["submit-simulation.py"; "5"; "alpha"]).
Proof.
  split.
  - apply (proj1 (strip_flag_removes_one
             ["submit-simulation.py"; "5"; "whide"; "alpha"; "whide"])).
    simpl. auto.
  - apply (proj2 (strip_flag_removes_one
             ["submit-simulation.py"; "5"; "alpha"])).
    simpl. intros [H|[H|[H|[]]]]; discriminate H.
Defined.

(** C10, as stated, fails: with ["whide"; "5"; "alpha"] the walltime is
    not "5", the second element of the original list, but "alpha", the
    third; "5" has taken the place of the program name. *)
Lemma walltime_not_from_second_element :
  process_inputs ["whide"; "5"; "alpha"]
  = ([], inr (Inputs true "alpha" []))
  /\ nth_error ["whide"; "5"; "alpha"] 1 = Some "5"
  /\ nth_error ["whide"; "5"; "alpha"] 2 = Some "alpha"
  /\ "alpha" <> "5".
Proof. repeat split. discriminate. Qed.

(** C10, amended: the marker is looked for in the whole of [sys.argv],
    the program name included.  When [argv[0]] is the marker and there
    are at least two elements, the flag is set and [argv[0]] is what gets
    deleted; every later element moves one place down, so the walltime
    is the element that stood at index 2, the third one, and the
    simulation arguments are those after it; with nothing at index 2 the
    read raises [IndexError]. *)
Theorem flag_as_program_name :
  (forall rest, strip_flag (whide_flag :: rest) = inr (true, rest))
  /\ (forall a1 a2 more,
        process_inputs (whide_flag :: a1 :: a2 :: more)
        = ([], inr (Inputs true a2 more))
        /\ nth_error (whide_flag :: a1 :: a2 :: more) 2 = Some a2)
  /\ (forall a1,
        process_inputs [whide_flag; a1] = ([], inl Py.IndexError)).
Proof. repeat split. Qed.

(** C3: at [prog whide] the length test passes, the marker is deleted and
    the read of [sys.argv[1]] raises [IndexError]: no usage message, no
    [SystemExit]; nothing has been run or written.  With the program
    name alone the usage line is printed and the script exits with 1. *)
Theorem marker_only_is_index_error (w : world) (prog : string) :
  main w [prog; whide_flag] = ([], inl Py.IndexError)
  /\ main w [prog]
     = ([Print ("usage: {} [{}] walltime_in_hours [simulation arguments] whide"
                ++ nl)],
        inl (Py.SystemExit 1)).
Proof.
  split.
  - unfold main, process_inputs, strip_flag.
    cbn -[String.eqb whide_flag].
    rewrite String.eqb_refl, orb_true_r.
    destruct (String.eqb whide_flag prog); reflexivity.
  - reflexivity.
Qed.

(** ** Whitespace splitting *)

Lemma bytes_split_blank (s : string) :
  blank s = true -> Py.bytes_split s = [].
Proof.
  induction s as [|a s IH]; simpl; [reflexivity|].
  intros H. apply andb_true_iff in H as [Ha Hs].
  rewrite Ha. now apply IH.
Qed.

Lemma bytes_split_starts (a : ascii) (s : string) :
  Py.is_space a = false -> Py.bytes_split (String a s) <> [].
Proof.
  intros Ha. simpl. rewrite Ha.
  destruct s as [|b s]; [discriminate|].
  destruct (Py.is_space b); [discriminate|].
  destruct (Py.bytes_split (String b s)); discriminate.
Qed.

Lemma bytes_split_app_space (pre rest : string) (sp : ascii) :
  Py.is_space sp = true ->
  Py.bytes_split (pre ++ String sp rest)
  = (Py.bytes_split pre ++ Py.bytes_split rest)%list.
Proof.
  intros Hsp. induction pre as [|a pre IH].
  - simpl. now rewrite Hsp.
  - change (String a pre ++ String sp rest)
      with (String a (pre ++ String sp rest)).
    cbn [Py.bytes_split]. destruct (Py.is_space a); [exact IH|].
    destruct pre as [|b pre].
    + cbn [append]. rewrite Hsp. cbn [Py.bytes_split]. now rewrite Hsp.
    + change (String b pre ++ String sp rest)
        with (String b (pre ++ String sp rest)) in *.
      destruct (Py.is_space b) eqn:Hb.
      * rewrite ?Hb, IH. reflexivity.
      * rewrite ?Hb, IH. pose proof (@bytes_split_starts b pre Hb) as Hne.
        destruct (Py.bytes_split (String b pre)); [contradiction|reflexivity].
Qed.

Lemma bytes_split_token (t : string) :
  is_token t = true -> Py.bytes_split t = [t].
Proof.
  unfold is_token. intros H. apply andb_true_iff in H as [Hne H].
  induction t as [|a t IH]; [discriminate|].
  simpl in H. apply andb_true_iff in H as [Ha Ht].
  apply negb_true_iff in Ha. cbn [Py.bytes_split]. rewrite Ha.
  destruct t as [|b t]; [reflexivity|].
  assert (Hb : Py.is_space b = false).
  { simpl in Ht. apply andb_true_iff in Ht as [Hb _].
    now apply negb_true_iff in Hb. }
  rewrite Hb, (IH eq_refl Ht). reflexivity.
Qed.

Lemma bytes_split_token_blank (t post : string) :
  is_token t = true -> blank post = true ->
  Py.bytes_split (t ++ post) = [t].
Proof.
  intros Ht Hp. destruct post as [|sp post].
  - rewrite append_empty_r. now apply bytes_split_token.
  - simpl in Hp. apply andb_true_iff in Hp as [Hsp Hp].
    rewrite (bytes_split_app_space _ _ _ Hsp).
    now rewrite (bytes_split_token _ Ht), (bytes_split_blank _ Hp).
Qed.

Lemma ends_blank_inv (s : string) :
  ends_blank s = true ->
  s = "" \/ exists s' sp, s = s' ++ String sp "" /\ Py.is_space sp = true.
Proof.
  induction s as [|a s IH]; [now left|]. intros H. right.
  destruct s as [|b s].
  - exists "", a. split; [reflexivity | exact H].
  - destruct (IH H) as [E | (s' & sp & E & Hsp)]; [discriminate|].
    exists (String a s'), sp. split; [|assumption].
    simpl. now rewrite <- E.
Qed.

Lemma last_item_last (A : Type) (l : list A) (x : A) :
  Py.last_item (l ++ [x]) = inr x.
Proof.
  induction l as [|y l IH]; [reflexivity|].
  simpl. destruct (l ++ [x])%list eqn:E; [|exact IH].
  now destruct l.
Qed.

Lemma last_token (pre t post : string) :
  ends_blank pre = true -> is_token t = true -> blank post = true ->
  Py.last_item (Py.bytes_split (pre ++ t ++ post)) = inr t.
Proof.
  intros Hpre Ht Hpost.
  destruct (ends_blank_inv _ Hpre) as [-> | (s' & sp & -> & Hsp)].
  - simpl. now rewrite bytes_split_token_blank.
  - rewrite append_assoc. simpl.
    rewrite (bytes_split_app_space _ _ _ Hsp).
    rewrite bytes_split_token_blank by assumption.
    apply last_item_last.
Qed.

(** ** The pipeline, stage by stage *)

Lemma bind_ret (A B : Type) (a : A) (f : A -> M B) :
  bind ([], inr a) f = f a.
Proof. unfold bind. now destruct (f a). Qed.

Lemma usage_cases (argv : list string) :
  usage argv = ([], inl Py.IndexError)
  \/ exists text, usage argv = ([Print text], inl (Py.SystemExit 1)).
Proof.
  destruct argv as [|prog rest]; [now left|].
  right. eexists. reflexivity.
Qed.

(** Parsing either succeeds silently or stops having done no more than
    print. *)
Lemma process_inputs_cases (argv : list string) :
  (exists i, process_inputs argv = ([], inr i))
  \/ (exists t e, process_inputs argv = (t, inl e)
                  /\ existsb is_side_effect t = false).
Proof.
  unfold process_inputs.
  destruct (Nat.ltb (List.length argv) 2).
  - right. destruct (usage_cases argv) as [E | [text E]]; rewrite E;
      do 2 eexists; split; reflexivity.
  - unfold ret, lift. rewrite bind_ret.
    destruct (strip_flag argv) as [e | [wh argv']].
    + right. do 2 eexists. split; reflexivity.
    + rewrite bind_ret.
      destruct (Py.item argv' 1) as [e | h].
      * right. do 2 eexists. split; reflexivity.
      * left. eexists. reflexivity.
Qed.

Lemma build_eq (w : world) (wh : bool) :
  build w wh
  = ([Print ("building project" ++ nl); Call (build_argv wh)],
     match run_argv w (build_argv wh) with
     | Returned _ => inr tt
     | NotStarted => inl Py.OSError
     end).
Proof.
  unfold build, subprocess_call, print.
  destruct (run_argv w (build_argv wh)); reflexivity.
Qed.

Lemma write_job_eq (w : world) (job_file text : string) :
  write_job w job_file text
  = if is_dir w job_dir || makedirs_ok w job_dir then
      ((IsDir job_dir
          :: (if is_dir w job_dir then [] else [MakeDirs job_dir]))
       ++ [WriteFile job_file text],
       if write_ok w job_file then inr tt else inl Py.OSError)%list
    else ([IsDir job_dir; MakeDirs job_dir], inl Py.OSError).
Proof.
  unfold write_job, os_path_isdir, os_makedirs, write_file.
  destruct (is_dir w job_dir), (makedirs_ok w job_dir),
    (write_ok w job_file); reflexivity.
Qed.

Lemma submit_eq (w : world) (job_file : string) :
  submit w job_file
  = ([GetFqdn; Call [submit_cmd_of (fqdn w); job_file]],
     match run_argv w [submit_cmd_of (fqdn w); job_file] with
     | Returned _ => inr tt
     | NotStarted => inl Py.OSError
     end).
Proof.
  unfold submit, socket_getfqdn, subprocess_call.
  cbn [bind emit ret app].
  destruct (run_argv w [submit_cmd_of (fqdn w); job_file]); reflexivity.
Qed.

Lemma after_build_rendered (w : world) (h : string) (args : list string)
  (out s : string) :
  run_shell w (suffix_cmd args) = Output 0 out ->
  suffix_of_output out = inr s ->
  after_build w h args
  = let jf := job_path (basename_of s) in
    let rest := write_job w jf (rendered (basename_of s) h args) ;;;
                submit w jf in
    (CheckOutputShell (suffix_cmd args) :: fst rest, snd rest).
Proof.
  intros Hq Hs. unfold after_build, check_output_shell.
  rewrite Hq. cbn [Z.eqb]. 
  cbn [emit bind ret app]. rewrite Hs.
  unfold lift. rewrite bind_ret, job_file_of_eq, bind_ret.
  rewrite job_text_rendered, bind_ret.
  cbv zeta. fold (job_path (basename_of s)).
  now destruct (write_job _ _ _ ;;; submit _ _).
Qed.

Lemma after_build_failed (w : world) (h : string) (args : list string) :
  (exists e, after_build w h args = ([CheckOutputShell (suffix_cmd args)], inl e)
             /\ (suffix_query_error w (suffix_cmd args) = Some e
                 \/ suffix_query_error w (suffix_cmd args) = None))
  \/ (exists out s, run_shell w (suffix_cmd args) = Output 0 out
                    /\ suffix_of_output out = inr s).
Proof.
  unfold suffix_query_error.
  destruct (run_shell w (suffix_cmd args)) as [rc out|] eqn:Hq.
  - destruct (Z.eqb rc 0) eqn:Hrc.
    + apply Z.eqb_eq in Hrc. subst rc.
      destruct (suffix_of_output out) as [e|s] eqn:Hs.
      * left. exists e. split.
        -- unfold after_build, check_output_shell. rewrite Hq.
           cbn [Z.eqb emit bind ret app]. now rewrite Hs.
        -- unfold suffix_of_output in Hs.
           destruct (Py.bytes_split out); [left | now right].
           simpl in Hs. congruence.
      * right. now exists out, s.
    + left. eexists. split; [|left; reflexivity].
      unfold after_build, check_output_shell. rewrite Hq, Hrc. reflexivity.
  - left. eexists. split; [|left; reflexivity].
    unfold after_build, check_output_shell. rewrite Hq. reflexivity.
Qed.

Lemma main_parsed (w : world) (argv : list string) (i : inputs) :
  process_inputs argv = ([], inr i) ->
  main w argv
  = match run_argv w (build_argv (whide i)) with
    | Returned _ =>
        (Print ("building project" ++ nl)
           :: Call (build_argv (whide i))
           :: fst (after_build w (walltime_in_hours i) (sim_args i)),
         snd (after_build w (walltime_in_hours i) (sim_args i)))
    | NotStarted =>
        ([Print ("building project" ++ nl); Call (build_argv (whide i))],
         inl Py.OSError)
    end.
Proof.
  intros P. unfold main. rewrite P, bind_ret, build_eq.
  destruct (run_argv w (build_argv (whide i))); [|reflexivity].
  unfold bind. now destruct (after_build _ _ _).
Qed.

Lemma no_side_effect_no_event (t : list event) (e : event) :
  existsb is_side_effect t = false -> is_side_effect e = true -> ~ In e t.
Proof.
  intros Hn He Hin.
  assert (existsb is_side_effect t = true) as Ht
      by (apply existsb_exists; now exists e).
  congruence.
Qed.

(** The shape of every run that gets as far as opening the job file. *)
Lemma main_written (w : world) (argv : list string) :
  (exists i out s pre,
      process_inputs argv = ([], inr i)
      /\ run_shell w (suffix_cmd (sim_args i)) = Output 0 out
      /\ suffix_of_output out = inr s
      /\ existsb is_write pre = false /\ ~ In GetFqdn pre
      /\ let p := job_path (basename_of s) in
         let t := rendered (basename_of s) (walltime_in_hours i) (sim_args i) in
         main w argv
         = if write_ok w p then
             ((pre ++ [WriteFile p t; GetFqdn;
                       Call [submit_cmd_of (fqdn w); p]])%list,
              match run_argv w [submit_cmd_of (fqdn w); p] with
              | Returned _ => inr tt
              | NotStarted => inl Py.OSError
              end)
           else ((pre ++ [WriteFile p t])%list, inl Py.OSError))
  \/ (exists t e, main w argv = (t, inl e)
                  /\ existsb is_write t = false /\ ~ In GetFqdn t).
Proof.
  destruct (process_inputs_cases argv) as [[i P] | (t & e & P & Ht)].
  2:{ right. exists t, e. unfold main. rewrite P. cbn [bind].
      split; [reflexivity|]. split.
      - destruct (existsb is_write t) eqn:E; [|reflexivity].
        apply existsb_exists in E as (x & Hx & Hw).
        exfalso. apply (no_side_effect_no_event _ x Ht); [|assumption].
        now destruct x.
      - now apply no_side_effect_no_event. }
  rewrite (main_parsed w _ P).
  destruct (run_argv w (build_argv (whide i))) as [rcb|].
  2:{ right. do 2 eexists. split; [reflexivity|].
      split; [reflexivity|]. simpl. intuition discriminate. }
  destruct (after_build_failed w (walltime_in_hours i) (sim_args i))
    as [(e & E & _) | (out & s & Hq & Hs)].
  { right. rewrite E. do 2 eexists. split; [reflexivity|].
    split; [reflexivity|]. simpl. intuition discriminate. }
  rewrite (after_build_rendered w _ _ Hq Hs). cbv zeta.
  rewrite write_job_eq, submit_eq.
  destruct (is_dir w job_dir) eqn:Hd; cbn [orb].
  - left. exists i, out, s.
    exists [Print ("building project" ++ nl); Call (build_argv (whide i));
            CheckOutputShell (suffix_cmd (sim_args i)); IsDir job_dir].
    repeat (split; [first [assumption | reflexivity
                          | simpl; intuition discriminate]|]).
    destruct (write_ok w (job_path (basename_of s))); reflexivity.
  - destruct (makedirs_ok w job_dir) eqn:Hm.
    + left. exists i, out, s.
      exists [Print ("building project" ++ nl); Call (build_argv (whide i));
              CheckOutputShell (suffix_cmd (sim_args i)); IsDir job_dir;
              MakeDirs job_dir].
      repeat (split; [first [assumption | reflexivity
                            | simpl; intuition discriminate]|]).
      destruct (write_ok w (job_path (basename_of s))); reflexivity.
    + right. do 2 eexists. split; [reflexivity|].
      split; [reflexivity|]. simpl. intuition discriminate.
Qed.

(** ** The suffix query *)

Lemma suffix_needs_token (out s : string) :
  suffix_of_output out = inr s -> Py.bytes_split out <> [].
Proof.
  unfold suffix_of_output. intros H E. rewrite E in H. discriminate.
Qed.

(** C5: the suffix is the last whitespace-delimited token of the captured
    output; when the query cannot be run, exits with a non-zero status
    or prints no token, its error ends the run with a non-zero exit
    status and no job file has been written. *)
Theorem suffix_query_failure_aborts :
  (forall pre t post,
      ends_blank pre = true -> is_token t = true -> blank post = true ->
      Py.utf8_valid t = true ->
      suffix_of_output (pre ++ t ++ post) = inr t)
  /\ (forall w argv i rcb e,
        process_inputs argv = ([], inr i) ->
        run_argv w (build_argv (whide i)) = Returned rcb ->
        suffix_query_error w (suffix_cmd (sim_args i)) = Some e ->
        snd (main w argv) = inl e
        /\ exit_status (main w argv) <> 0%Z
        /\ existsb is_write (trace (main w argv)) = false).
Proof.
  split.
  - intros pre t post Hpre Ht Hpost Hu. unfold suffix_of_output.
    rewrite (last_token _ _ _ Hpre Ht Hpost).
    unfold Py.decode_utf8. now rewrite Hu.
  - intros w argv i rcb e P B Q.
    rewrite (main_parsed w _ P), B.
    destruct (after_build_failed w (walltime_in_hours i) (sim_args i))
      as [(e' & E & [Q' | Q']) | (out & s & Hq & Hs)].
    + rewrite E. assert (e' = e) by congruence. subst e'.
      cbn [snd fst trace exit_status]. repeat split.
      unfold suffix_query_error in Q.
      destruct (run_shell w (suffix_cmd (sim_args i))) as [rc out|].
      * destruct (Z.eqb rc 0).
        -- destruct (Py.bytes_split out); [|discriminate].
           injection Q as <-. discriminate.
        -- injection Q as <-. discriminate.
      * injection Q as <-. discriminate.
    + congruence.
    + exfalso. unfold suffix_query_error in Q. rewrite Hq in Q.
      cbn [Z.eqb] in Q. pose proof (suffix_needs_token _ Hs) as Hne.
      destruct (Py.bytes_split out); [contradiction | discriminate].
Qed.

Lemma suffix_query_failure_aborts_witness :
  suffix_of_output ("suffix: " ++ "foo.bar.net" ++ nl) = inr "foo.bar.net"
  /\ (snd (main silent_simulation ["submit-simulation.py"; "5"; "alpha"])
      = inl Py.IndexError
      /\ exit_status (main silent_simulation
                           ["submit-simulation.py"; "5"; "alpha"]) <> 0%Z
      /\ existsb is_write
           (trace (main silent_simulation
                        ["submit-simulation.py"; "5"; "alpha"])) = false)
  /\ (snd (main failing_simulation ["submit-simulation.py"; "5"])
      = inl (Py.CalledProcessError 127)
      /\ exit_status (main failing_simulation
                           ["submit-simulation.py"; "5"]) <> 0%Z
      /\ existsb is_write
           (trace (main failing_simulation
                        ["submit-simulation.py"; "5"])) = false).
Proof.
  split; [|split].
  - apply (proj1 suffix_query_failure_aborts "suffix: " "foo.bar.net" nl);
      reflexivity.
  - apply (proj2 suffix_query_failure_aborts silent_simulation
             ["submit-simulation.py"; "5"; "alpha"]
             (Inputs false "5" ["alpha"]) 0%Z Py.IndexError);
      reflexivity.
  - apply (proj2 suffix_query_failure_aborts failing_simulation
             ["submit-simulation.py"; "5"]
             (Inputs false "5" []) 0%Z (Py.CalledProcessError 127));
      reflexivity.
Defined.

(** ** The build step *)

(** C7, as stated, fails when the build tool cannot be started:
    [subprocess.call] raises, the script stops with status 1 and the
    suffix query is never made. *)
Lemma build_not_started_halts :
  main no_build_tool ["submit-simulation.py"; "5"; "alpha"]
  = ([Print ("building project" ++ nl); Call ["./mkfac.py"]],
     inl Py.OSError)
  /\ exit_status (main no_build_tool ["submit-simulation.py"; "5"; "alpha"])
     = 1%Z
  /\ ~ In (CheckOutputShell (suffix_cmd ["alpha"]))
          (trace (main no_build_tool ["submit-simulation.py"; "5"; "alpha"])).
Proof.
  repeat split. simpl. intuition discriminate.
Qed.

(** C7, amended: whatever return code the build command hands back, zero
    or not, is dropped; the run goes on with the suffix query and the
    stages after it, none of which sees the code.  (A build command that
    cannot be started raises and stops the run.) *)
Theorem build_return_code_ignored (w : world) (argv : list string)
  (i : inputs) (rc : Z) :
  process_inputs argv = ([], inr i) ->
  run_argv w (build_argv (whide i)) = Returned rc ->
  main w argv
  = (Print ("building project" ++ nl)
       :: Call (build_argv (whide i))
       :: trace (after_build w (walltime_in_hours i) (sim_args i)),
     snd (after_build w (walltime_in_hours i) (sim_args i)))
  /\ exists rest,
      trace (after_build w (walltime_in_hours i) (sim_args i))
      = CheckOutputShell (suffix_cmd (sim_args i)) :: rest.
Proof.
  intros P B. rewrite (main_parsed w _ P), B. split; [reflexivity|].
  destruct (after_build_failed w (walltime_in_hours i) (sim_args i))
    as [(e & E & _) | (out & s & Hq & Hs)].
  - rewrite E. now exists [].
  - rewrite (after_build_rendered w _ _ Hq Hs). cbv zeta.
    eexists. reflexivity.
Qed.

Lemma build_return_code_ignored_witness :
  main laptop ["submit-simulation.py"; "whide"; "5"; "alpha"]
  = (Print ("building project" ++ nl)
       :: Call (build_argv true)
       :: trace (after_build laptop "5" ["alpha"]),
     snd (after_build laptop "5" ["alpha"]))
  /\ exists rest,
      trace (after_build laptop "5" ["alpha"])
      = CheckOutputShell (suffix_cmd ["alpha"]) :: rest.
Proof.
  apply (@build_return_code_ignored laptop
           ["submit-simulation.py"; "whide"; "5"; "alpha"]
           (Inputs true "5" ["alpha"]) 3%Z); reflexivity.
Defined.

(** ** Submission *)

Lemma prefix_app (n h : string) :
  String.prefix n h = true <-> exists post, h = n ++ post.
Proof.
  revert h. induction n as [|a n IH]; intros h.
  - split; [intros _; now exists h | intros _; now destruct h].
  - destruct h as [|b h]; simpl.
    + split; [discriminate | intros [post E]; discriminate].
    + destruct (ascii_dec a b) as [->|Hab].
      * rewrite IH. split; intros [post E]; exists post; congruence.
      * split; [discriminate | intros [post E]; congruence].
Qed.

Lemma contains_str_unfold (n h : string) :
  Py.contains_str n h
  = if String.prefix n h then true
    else match h with
         | EmptyString => false
         | String _ h' => Py.contains_str n h'
         end.
Proof. now destruct h. Qed.

Lemma contains_str_spec (n h : string) :
  Py.contains_str n h = true <-> exists pre post, h = pre ++ n ++ post.
Proof.
  split.
  - induction h as [|a h IH]; rewrite contains_str_unfold.
    + destruct (String.prefix n "") eqn:E; [|discriminate].
      intros _. apply prefix_app in E. destruct E as [post E].
      now exists "", post.
    + destruct (String.prefix n (String a h)) eqn:E.
      * intros _. apply prefix_app in E. destruct E as [post E].
        now exists "", post.
      * intros H. destruct (IH H) as (pre & post & ->).
        now exists (String a pre), post.
  - intros (pre & post & ->). induction pre as [|a pre IH].
    + assert (String.prefix n ("" ++ n ++ post) = true) as E
          by (apply prefix_app; now exists post).
      rewrite contains_str_unfold, E. reflexivity.
    + cbn [append Py.contains_str]. rewrite IH.
      now destruct (String.prefix n _).
Qed.

(** C8: the submit command depends on the host name alone, [sbatch] when
    it contains "colorado.edu" and [sh] otherwise; it is called with the
    job file as its only argument, last of all, and whatever it returns
    the script ends normally, with status 0. *)
Theorem submit_by_host_name :
  (forall host,
      (exists pre post, host = pre ++ "colorado.edu" ++ post) ->
      submit_cmd_of host = "sbatch")
  /\ (forall host,
        ~ (exists pre post, host = pre ++ "colorado.edu" ++ post) ->
        submit_cmd_of host = "sh")
  /\ (forall w argv,
        In GetFqdn (trace (main w argv)) ->
        exists pre job_file text,
          trace (main w argv)
          = (pre ++ [WriteFile job_file text; GetFqdn;
                     Call [submit_cmd_of (fqdn w); job_file]])%list
          /\ forall rc,
              run_argv w [submit_cmd_of (fqdn w); job_file] = Returned rc ->
              snd (main w argv) = inr tt
              /\ exit_status (main w argv) = 0%Z).
Proof.
  split; [|split].
  - intros host H. apply contains_str_spec in H.
    unfold submit_cmd_of. now rewrite H.
  - intros host H. unfold submit_cmd_of.
    destruct (Py.contains_str "colorado.edu" host) eqn:E; [|reflexivity].
    apply contains_str_spec in E. contradiction.
  - intros w argv Hin.
    destruct (main_written w argv)
      as [(i & out & s & pre & _ & _ & _ & _ & Hpre & E)
         | (t & e & E & _ & Hn)].
    2:{ rewrite E in Hin. contradiction. }
    cbv zeta in E.
    destruct (write_ok w (job_path (basename_of s))).
    + exists pre. do 2 eexists. rewrite E. split; [reflexivity|].
      intros rc R. unfold exit_status. cbn [snd]. rewrite R. now split.
    + exfalso. rewrite E in Hin. cbn [trace fst] in Hin.
      apply in_app_or in Hin as [Hin | Hin]; [contradiction|].
      simpl in Hin. intuition discriminate.
Qed.

Lemma submit_by_host_name_witness :
  submit_cmd_of ("login11.rc." ++ "colorado.edu" ++ "") = "sbatch"
  /\ submit_cmd_of "laptop.local" = "sh"
  /\ exists pre job_file text,
      trace (main laptop ["submit-simulation.py"; "5"; "alpha"; "beta"])
      = (pre ++ [WriteFile job_file text; GetFqdn;
                 Call [submit_cmd_of (fqdn laptop); job_file]])%list
      /\ forall rc,
          run_argv laptop [submit_cmd_of (fqdn laptop); job_file]
          = Returned rc ->
          snd (main laptop ["submit-simulation.py"; "5"; "alpha"; "beta"])
          = inr tt
          /\ exit_status
               (main laptop ["submit-simulation.py"; "5"; "alpha"; "beta"])
             = 0%Z.
Proof.
  split; [|split].
  - apply (proj1 submit_by_host_name). now exists "login11.rc.", "".
  - apply (proj1 (proj2 submit_by_host_name)).
    intros H. apply contains_str_spec in H. discriminate H.
  - apply (proj2 (proj2 submit_by_host_name) laptop
             ["submit-simulation.py"; "5"; "alpha"; "beta"]).
    vm_compute. tauto.
Defined.

(** ** What the job script depends on *)

Lemma written_is_rendered (w : world) (argv : list string) (i : inputs)
  (out s p t : string) :
  process_inputs argv = ([], inr i) ->
  run_shell w (suffix_cmd (sim_args i)) = Output 0 out ->
  suffix_of_output out = inr s ->
  In (WriteFile p t) (trace (main w argv)) ->
  p = job_path (basename_of s)
  /\ t = rendered (basename_of s) (walltime_in_hours i) (sim_args i).
Proof.
  intros P Q S Hin.
  destruct (main_written w argv)
    as [(i' & out' & s' & pre & P' & Q' & S' & Hpre & _ & E)
       | (t' & e & E & Hn & _)].
  2:{ rewrite E in Hin. cbn [trace fst] in Hin.
      assert (existsb is_write t' = true)
        by (apply existsb_exists; now exists (WriteFile p t)).
      congruence. }
  assert (i' = i) by congruence. subst i'.
  assert (out' = out) by congruence. subst out'.
  assert (s' = s) by congruence. subst s'.
  cbv zeta in E. rewrite E in Hin.
  assert (Hnot : ~ In (WriteFile p t) pre).
  { intros H. assert (existsb is_write pre = true)
      by (apply existsb_exists; now exists (WriteFile p t)).
    congruence. }
  destruct (write_ok w (job_path (basename_of s)));
    cbn [trace fst] in Hin; apply in_app_or in Hin as [Hin|Hin];
    try contradiction; simpl in Hin;
    repeat (destruct Hin as [Hin|Hin]; try discriminate Hin);
    try contradiction; injection Hin as <- <-; now split.
Qed.

(** C9: in every run the text written to the job file is [job_text] of
    the run's basename, walltime and simulation arguments, so two runs
    that agree on these three write the same text, whatever the host,
    the marker flag, the other arguments or the rest of the output of
    the query. *)
Theorem job_text_depends_on_inputs_only
  (w1 w2 : world) (argv1 argv2 : list string) (i1 i2 : inputs)
  (out1 out2 s1 s2 p1 p2 t1 t2 : string) :
  process_inputs argv1 = ([], inr i1) ->
  run_shell w1 (suffix_cmd (sim_args i1)) = Output 0 out1 ->
  suffix_of_output out1 = inr s1 ->
  process_inputs argv2 = ([], inr i2) ->
  run_shell w2 (suffix_cmd (sim_args i2)) = Output 0 out2 ->
  suffix_of_output out2 = inr s2 ->
  basename_of s1 = basename_of s2 ->
  walltime_in_hours i1 = walltime_in_hours i2 ->
  sim_args i1 = sim_args i2 ->
  In (WriteFile p1 t1) (trace (main w1 argv1)) ->
  In (WriteFile p2 t2) (trace (main w2 argv2)) ->
  t1 = t2
  /\ job_text (basename_of s1) (walltime_in_hours i1) (sim_args i1) = inr t1.
Proof.
  intros P1 Q1 S1 P2 Q2 S2 Hb Hh Ha In1 In2.
  destruct (@written_is_rendered w1 argv1 i1 out1 s1 p1 t1 P1 Q1 S1 In1)
    as [_ ->].
  destruct (@written_is_rendered w2 argv2 i2 out2 s2 p2 t2 P2 Q2 S2 In2)
    as [_ ->].
  rewrite job_text_rendered. split; [|reflexivity].
  now rewrite Hb, Hh, Ha.
Qed.

Lemma job_text_depends_on_inputs_only_witness :
  rendered "networkfoo.bar" "5" ["alpha"]
  = rendered "networkfoo.bar" "5" ["alpha"]
  /\ job_text (basename_of "foo.bar.net") "5" ["alpha"]
     = inr (rendered "networkfoo.bar" "5" ["alpha"]).
Proof.
  apply (@job_text_depends_on_inputs_only cluster laptop
           ["submit-simulation.py"; "5"; "alpha"]
           ["whide"; "whide"; "5"; "alpha"]
           (Inputs false "5" ["alpha"]) (Inputs true "5" ["alpha"])
           ("suffix: foo.bar.net" ++ nl) ("suffix: foo.bar.net" ++ nl)
           "foo.bar.net" "foo.bar.net"
           "jobs/networkfoo.bar.sh" "jobs/networkfoo.bar.sh");
    try reflexivity; vm_compute; tauto.
Defined.

(** ** Passing the simulation arguments on *)

(** C4, as stated, fails: the arguments are pasted into one line of
    shell text, so the list ["a b"] and the list ["a"; "b"] give the same
    query and the same job script, indeed the same run. *)
Lemma args_not_kept_apart :
  ["a b"] <> ["a"; "b"]
  /\ suffix_cmd ["a b"] = suffix_cmd ["a"; "b"]
  /\ job_text "network" "5" ["a b"] = job_text "network" "5" ["a"; "b"]
  /\ main cluster ["submit-simulation.py"; "5"; "a b"]
     = main cluster ["submit-simulation.py"; "5"; "a"; "b"].
Proof. repeat split. discriminate. Qed.

Lemma join_tokens (args : list string) :
  (forall a, In a args -> is_token a = true) ->
  Py.bytes_split (Py.join " " args) = args.
Proof.
  induction args as [|a rest IH]; intros H; [reflexivity|].
  assert (Ha : is_token a = true) by (apply H; now left).
  assert (Hr : forall b, In b rest -> is_token b = true)
    by (intros b Hb; apply H; now right).
  cbn [Py.join]. destruct rest as [|b rest].
  - now apply bytes_split_token.
  - change (a ++ " " ++ Py.join " " (b :: rest))
      with (a ++ String " " (Py.join " " (b :: rest))).
    rewrite bytes_split_app_space by reflexivity.
    now rewrite (bytes_split_token _ Ha), (IH Hr).
Qed.

(** C4, amended: the arguments are put, unescaped and joined by single
    spaces, at the end of the command line of the suffix query and of the
    invocation line of the job script; what goes on is this text, read
    by a shell.  Arguments that are not empty and hold no whitespace are
    got back, in order, by cutting the text at whitespace. *)
Theorem args_joined_unescaped :
  (forall args,
      suffix_cmd args = "./simulate.exe --suffix " ++ Py.join " " args)
  /\ (forall basename h, exists head, forall args,
        job_text basename h args
        = inr (head ++ "./simulate.exe " ++ Py.join " " args ++ nl))
  /\ (forall args,
        (forall a, In a args -> is_token a = true) ->
        Py.bytes_split (Py.join " " args) = args).
Proof.
  split; [reflexivity|]. split; [|exact join_tokens].
  intros basename h.
  exists (Py.join nl (removelast (job_lines basename h [])) ++ nl).
  intros args. rewrite job_text_rendered. f_equal.
  unfold rendered, job_lines. cbn [removelast Py.join].
  rewrite !append_assoc. reflexivity.
Qed.

Lemma args_joined_unescaped_witness :
  Py.bytes_split (Py.join " " ["alpha"; "--beta=2"]) = ["alpha"; "--beta=2"].
Proof.
  apply (proj2 (proj2 args_joined_unescaped) ["alpha"; "--beta=2"]).
  intros a [<- | [<- | []]]; reflexivity.
Defined.

(** ** More on argument parsing *)

Lemma strip_flag_cases (argv : list string) :
  (Py.contains_item whide_flag argv = true
   /\ exists l1 l2, argv = (l1 ++ whide_flag :: l2)%list
                    /\ ~ In whide_flag l1
                    /\ strip_flag argv = inr (true, (l1 ++ l2)%list))
  \/ (Py.contains_item whide_flag argv = false
      /\ strip_flag argv = inr (false, argv)).
Proof.
  unfold strip_flag.
  destruct (Py.contains_item whide_flag argv) eqn:E; [left | right; now split].
  split; [reflexivity|].
  destruct (remove_first _ argv (proj1 (contains_item_In _ _) E))
    as (l1 & l2 & Ha & Hn & R).
  exists l1, l2. now rewrite R.
Qed.

Lemma process_inputs_long (argv : list string) :
  2 <= List.length argv ->
  process_inputs argv
  = ([], match strip_flag argv with
         | inl e => inl e
         | inr (wh, argv') =>
             match Py.item argv' 1 with
             | inl e => inl e
             | inr h => inr (Inputs wh h (Py.slice_from 2 argv'))
             end
         end).
Proof.
  intros H. unfold process_inputs.
  destruct (Nat.ltb_spec (List.length argv) 2) as [Hlt|_]; [lia|].
  unfold ret, lift. rewrite bind_ret.
  destruct (strip_flag argv) as [e | [wh argv']]; [reflexivity|].
  rewrite bind_ret. now destruct (Py.item argv' 1).
Qed.

Lemma process_inputs_short (argv : list string) :
  List.length argv < 2 ->
  process_inputs argv
  = match argv with
    | [] => ([], inl Py.IndexError)
    | _ :: _ =>
        ([Print ("usage: {} [{}] walltime_in_hours [simulation arguments] whide"
                 ++ nl)],
         inl (Py.SystemExit 1))
    end.
Proof.
  destruct argv as [|a [|b r]]; simpl; intros H; try lia; reflexivity.
Qed.

Lemma strip_flag_length (argv argv' : list string) (wh : bool) :
  strip_flag argv = inr (wh, argv') ->
  wh = Py.contains_item whide_flag argv
  /\ List.length argv = List.length argv' + (if wh then 1 else 0).
Proof.
  intros H.
  destruct (strip_flag_cases argv)
    as [(E & l1 & l2 & -> & _ & R) | (E & R)];
    rewrite R in H; injection H as <- <-; rewrite E; split; try reflexivity.
  - rewrite !length_app. simpl. lia.
  - lia.
Qed.

Lemma parsed_inputs_flag (argv : list string) (i : inputs) :
  process_inputs argv = ([], inr i) ->
  whide i = Py.contains_item whide_flag argv
  /\ exists prog,
      strip_flag argv
      = inr (whide i, prog :: walltime_in_hours i :: sim_args i).
Proof.
  intros P.
  destruct (Nat.lt_ge_cases (List.length argv) 2) as [Hlt|Hge].
  - rewrite (process_inputs_short _ Hlt) in P. destruct argv; discriminate.
  - rewrite (process_inputs_long _ Hge) in P.
    destruct (strip_flag argv) as [e | [wh argv']] eqn:S; [discriminate|].
    destruct (strip_flag_length _ S) as [Hw _].
    destruct argv' as [|a0 [|h rest]]; try discriminate.
    cbn in P. injection P as <-. cbn [whide walltime_in_hours sim_args].
    split; [assumption|]. now exists a0.
Qed.

(** X1: the parsed pieces are the argument vector itself: program name,
    walltime and simulation arguments, in this order, make up [sys.argv]
    once the first marker is taken out, and the flag tells whether there
    was one. *)
Theorem parsed_inputs_partition (argv : list string) (i : inputs) :
  process_inputs argv = ([], inr i) ->
  whide i = Py.contains_item whide_flag argv
  /\ exists prog,
      strip_flag argv
      = inr (whide i, prog :: walltime_in_hours i :: sim_args i).
Proof. exact (@parsed_inputs_flag argv i). Qed.

Lemma parsed_inputs_partition_witness :
  true = Py.contains_item whide_flag
           ["submit-simulation.py"; "5"; "whide"; "alpha"; "whide"]
  /\ exists prog,
      strip_flag ["submit-simulation.py"; "5"; "whide"; "alpha"; "whide"]
      = inr (true, [prog; "5"; "alpha"; "whide"]).
Proof.
  apply (@parsed_inputs_partition
           ["submit-simulation.py"; "5"; "whide"; "alpha"; "whide"]
           (Inputs true "5" ["alpha"; "whide"])).
  reflexivity.
Defined.

Lemma process_inputs_marker_only (argv : list string) :
  2 <= List.length argv -> List.length argv < argv_needed argv ->
  process_inputs argv = ([], inl Py.IndexError).
Proof.
  unfold argv_needed. intros Hge Hlt. rewrite (process_inputs_long _ Hge).
  destruct (strip_flag_cases argv)
    as [(E & l1 & l2 & Ha & _ & R) | (E & R)]; rewrite E in Hlt; [|lia].
  rewrite R. subst argv. rewrite length_app in Hge, Hlt. simpl in Hge, Hlt.
  assert (L : List.length (l1 ++ l2) < 2) by (rewrite length_app; lia).
  destruct (l1 ++ l2)%list as [|a0 [|h rest]]; simpl in L; try lia;
    reflexivity.
Qed.

(** X2: the three ways parsing ends: with fewer than two elements the usage
    line is printed and the script exits with 1; with two elements or
    more, but not enough once the marker is taken out, the read of the
    walltime raises [IndexError]; otherwise it succeeds, silently. *)
Theorem process_inputs_outcomes (argv : list string) :
  (0 < List.length argv < 2 ->
   exists text, process_inputs argv = ([Print text], inl (Py.SystemExit 1)))
  /\ (2 <= List.length argv < argv_needed argv ->
      process_inputs argv = ([], inl Py.IndexError))
  /\ (argv_needed argv <= List.length argv ->
      exists i, process_inputs argv = ([], inr i)).
Proof.
  unfold argv_needed. repeat split.
  - intros [Hpos Hlt]. rewrite (process_inputs_short _ Hlt).
    destruct argv; [simpl in Hpos; lia|]. eexists. reflexivity.
  - intros [Hge Hlt]. now apply process_inputs_marker_only.
  - intros Hge.
    assert (H2 : 2 <= List.length argv) by lia.
    rewrite (process_inputs_long _ H2).
    destruct (strip_flag argv) as [e | [wh argv']] eqn:S.
    + destruct (strip_flag_cases argv)
        as [(_ & l1 & l2 & _ & _ & R) | (_ & R)]; congruence.
    + destruct (strip_flag_length _ S) as [Hw L]. rewrite <- Hw in Hge.
      destruct argv' as [|a0 [|h rest]];
        try (simpl in L; destruct wh; lia).
      eexists. reflexivity.
Qed.

Lemma process_inputs_outcomes_witness :
  (exists text,
      process_inputs ["submit-simulation.py"]
      = ([Print text], inl (Py.SystemExit 1)))
  /\ process_inputs ["submit-simulation.py"; "whide"]
     = ([], inl Py.IndexError)
  /\ exists i,
      process_inputs ["submit-simulation.py"; "whide"; "5"] = ([], inr i).
Proof.
  split; [|split].
  - apply (proj1 (process_inputs_outcomes ["submit-simulation.py"])).
    simpl. lia.
  - apply (proj1 (proj2 (process_inputs_outcomes
                           ["submit-simulation.py"; "whide"]))).
    vm_compute. lia.
  - apply (proj2 (proj2 (process_inputs_outcomes
                           ["submit-simulation.py"; "whide"; "5"]))).
    vm_compute. lia.
Defined.

Lemma remove_at (x : string) (l1 l2 : list string) :
  ~ In x l1 -> Py.remove x (l1 ++ x :: l2) = inr (l1 ++ l2)%list.
Proof.
  induction l1 as [|y l1 IH]; intros Hn; simpl.
  - now rewrite String.eqb_refl.
  - destruct (String.eqb x y) eqn:E.
    + apply String.eqb_eq in E. subst y. exfalso. apply Hn. now left.
    + rewrite IH; [reflexivity|]. intros H. apply Hn. now right.
Qed.

Lemma contains_item_false (x : string) (l : list string) :
  ~ In x l -> Py.contains_item x l = false.
Proof.
  intros H. destruct (Py.contains_item x l) eqn:E; [|reflexivity].
  apply contains_item_In in E. contradiction.
Qed.

(** X3: the marker may stand anywhere.  Putting it at any place of an
    argument vector that parses without it, the program-name slot
    included, changes the flag and nothing else: walltime and simulation
    arguments are the same. *)
Theorem marker_position_independent (l1 l2 : list string) (i : inputs) :
  ~ In whide_flag (l1 ++ l2) ->
  process_inputs (l1 ++ l2) = ([], inr i) ->
  whide i = false
  /\ process_inputs (l1 ++ whide_flag :: l2)
     = ([], inr (Inputs true (walltime_in_hours i) (sim_args i))).
Proof.
  intros Hn P.
  assert (Hn1 : ~ In whide_flag l1)
    by (intros H; apply Hn, in_or_app; now left).
  destruct (Nat.lt_ge_cases (List.length (l1 ++ l2)) 2) as [Hlt|Hge].
  { rewrite (process_inputs_short _ Hlt) in P.
    destruct (l1 ++ l2)%list; discriminate. }
  assert (Hge' : 2 <= List.length (l1 ++ whide_flag :: l2))
    by (rewrite length_app in *; simpl; lia).
  rewrite (process_inputs_long _ Hge) in P.
  rewrite (process_inputs_long _ Hge').
  assert (S : strip_flag (l1 ++ l2) = inr (false, (l1 ++ l2)%list))
    by (unfold strip_flag; now rewrite (contains_item_false _ _ Hn)).
  assert (S' : strip_flag (l1 ++ whide_flag :: l2)
               = inr (true, (l1 ++ l2)%list)).
  { unfold strip_flag.
    assert (E : Py.contains_item whide_flag (l1 ++ whide_flag :: l2) = true)
      by (apply contains_item_In, in_or_app; right; now left).
    now rewrite E, (@remove_at _ l1 l2 Hn1). }
  rewrite S in P. rewrite S'.
  destruct (Py.item (l1 ++ l2) 1) as [e|h]; [discriminate|].
  injection P as <-. now split.
Qed.

Lemma marker_position_independent_witness :
  false = false
  /\ process_inputs (["submit-simulation.py"; "5"] ++ whide_flag :: ["alpha"])
     = ([], inr (Inputs true "5" ["alpha"])).
Proof.
  apply (@marker_position_independent
           ["submit-simulation.py"; "5"] ["alpha"]
           (Inputs false "5" ["alpha"])).
  - simpl. intros [H|[H|[H|[]]]]; discriminate H.
  - reflexivity.
Defined.

(** X4: a run whose arguments do not parse does nothing but print: no
    sub-process is started, no file or directory is looked at or
    touched, and the exit status is 1. *)
Theorem parse_failure_no_effects (w : world) (argv : list string) :
  List.length argv < argv_needed argv ->
  existsb is_side_effect (trace (main w argv)) = false
  /\ exit_status (main w argv) = 1%Z.
Proof.
  intros H. unfold main.
  destruct (Nat.lt_ge_cases (List.length argv) 2) as [Hlt|Hge].
  - rewrite (process_inputs_short _ Hlt). destruct argv; now repeat split.
  - assert (E : process_inputs argv = ([], inl Py.IndexError))
      by now apply process_inputs_marker_only.
    rewrite E. now repeat split.
Qed.

Lemma parse_failure_no_effects_witness :
  existsb is_side_effect
    (trace (main cluster ["submit-simulation.py"; "whide"])) = false
  /\ exit_status (main cluster ["submit-simulation.py"; "whide"]) = 1%Z.
Proof.
  apply (@parse_failure_no_effects cluster ["submit-simulation.py"; "whide"]).
  vm_compute. lia.
Defined.

(** X5: when the arguments parse, the first thing a run does is to
    announce and start the build, and the build command is given the
    marker exactly when the marker stood somewhere in [sys.argv]. *)
Theorem build_first_with_flag (w : world) (argv : list string) :
  argv_needed argv <= List.length argv ->
  exists rest,
    trace (main w argv)
    = Print ("building project" ++ nl)
        :: Call ("./mkfac.py"
                   :: (if Py.contains_item whide_flag argv
                       then ["whide"] else []))
        :: rest.
Proof.
  intros H.
  assert (H2 : 2 <= List.length argv) by (unfold argv_needed in H; lia).
  destruct (process_inputs_cases argv) as [[i P] | (t & e & P & _)].
  - rewrite (main_parsed w _ P).
    destruct (parsed_inputs_flag _ P) as [-> _].
    destruct (run_argv w _); eexists; reflexivity.
  - exfalso. rewrite (process_inputs_long _ H2) in P.
    destruct (strip_flag argv) as [e' | [wh argv']] eqn:S.
    + destruct (strip_flag_cases argv)
        as [(_ & l1 & l2 & _ & _ & R) | (_ & R)]; congruence.
    + destruct (strip_flag_length _ S) as [Hw L].
      unfold argv_needed in H. rewrite <- Hw in H.
      destruct argv' as [|a0 [|h rest]];
        try (simpl in L; destruct wh; lia).
      discriminate.
Qed.

Lemma build_first_with_flag_witness :
  exists rest,
    trace (main laptop ["submit-simulation.py"; "5"; "alpha"; "whide"])
    = Print ("building project" ++ nl)
        :: Call ("./mkfac.py"
                   :: (if Py.contains_item whide_flag
                            ["submit-simulation.py"; "5"; "alpha"; "whide"]
                       then ["whide"] else []))
        :: rest.
Proof.
  apply (@build_first_with_flag laptop
           ["submit-simulation.py"; "5"; "alpha"; "whide"]).
  vm_compute. lia.
Defined.

(** ** More on the suffix *)

Lemma blank_or_last_token (s : string) :
  blank s = true
  \/ exists pre t post,
      s = pre ++ t ++ post
      /\ ends_blank pre = true /\ is_token t = true /\ blank post = true.
Proof.
  induction s as [|a s IH]; [now left|].
  destruct IH as [Hb | (pre & t & post & -> & Hpre & Ht & Hpost)].
  - destruct (Py.is_space a) eqn:Ha.
    + left. unfold blank in *. simpl. now rewrite Ha.
    + right. exists "", (String a ""), s. repeat split; try assumption.
      unfold is_token. simpl. now rewrite Ha.
  - right. destruct pre as [|b pre].
    + destruct (Py.is_space a) eqn:Ha.
      * exists (String a ""), t, post. now repeat split.
      * exists "", (String a t), post. repeat split; try assumption.
        unfold is_token in *. apply andb_true_iff in Ht as [_ Ht].
        simpl. now rewrite Ha, Ht.
    + exists (String a (String b pre)), t, post. now repeat split.
Qed.

Lemma decode_utf8_ok (b s : string) :
  Py.decode_utf8 b = inr s -> s = b /\ Py.utf8_valid b = true.
Proof.
  unfold Py.decode_utf8. destruct (Py.utf8_valid b); [|discriminate].
  intros H. injection H as <-. now split.
Qed.

Lemma ascii_utf8_valid (s : string) :
  all_chars is_ascii s = true -> Py.utf8_valid s = true.
Proof.
  induction s as [|a s IH]; [reflexivity|].
  simpl. intros H. apply andb_true_iff in H as [Ha Hs].
  unfold is_ascii in Ha. rewrite Ha. now apply IH.
Qed.

(** X6: whenever a suffix is obtained, it is a token of the output, not
    empty and free of whitespace, with nothing but whitespace after it
    and whitespace (or nothing) just before it, and it is well-formed
    UTF-8. *)
Theorem suffix_is_last_token (out s : string) :
  suffix_of_output out = inr s ->
  is_token s = true /\ Py.utf8_valid s = true
  /\ exists pre post,
      out = pre ++ s ++ post /\ ends_blank pre = true /\ blank post = true.
Proof.
  intros H.
  destruct (blank_or_last_token out)
    as [Hb | (pre & t & post & -> & Hpre & Ht & Hpost)].
  - unfold suffix_of_output in H. rewrite (bytes_split_blank _ Hb) in H.
    discriminate.
  - unfold suffix_of_output in H.
    rewrite (last_token _ _ _ Hpre Ht Hpost) in H.
    apply decode_utf8_ok in H as [-> Hu].
    repeat split; try assumption. now exists pre, post.
Qed.

Lemma suffix_is_last_token_witness :
  is_token "foo.bar.net" = true /\ Py.utf8_valid "foo.bar.net" = true
  /\ exists pre post,
      "warming up" ++ nl ++ "suffix: foo.bar.net" ++ nl
      = pre ++ "foo.bar.net" ++ post
      /\ ends_blank pre = true /\ blank post = true.
Proof.
  apply (@suffix_is_last_token
           ("warming up" ++ nl ++ "suffix: foo.bar.net" ++ nl) "foo.bar.net").
  reflexivity.
Defined.

(** X7: the two ways the suffix can fail to be read from an output:
    [IndexError] exactly when the output is empty or all whitespace, and
    [UnicodeDecodeError] only when the last token holds a byte above 127;
    an output whose last token is plain ASCII always gives a suffix. *)
Theorem suffix_errors (out : string) :
  (suffix_of_output out = inl Py.IndexError <-> blank out = true)
  /\ (forall e, suffix_of_output out = inl e ->
        e = Py.IndexError
        \/ (e = Py.UnicodeDecodeError
            /\ exists pre t post,
                out = pre ++ t ++ post /\ ends_blank pre = true
                /\ is_token t = true /\ blank post = true
                /\ all_chars is_ascii t = false)).
Proof.
  assert (Hdec : forall pre t post e,
             ends_blank pre = true -> is_token t = true ->
             blank post = true ->
             suffix_of_output (pre ++ t ++ post) = inl e ->
             e = Py.UnicodeDecodeError /\ all_chars is_ascii t = false).
  { intros pre t post e Hpre Ht Hpost H. unfold suffix_of_output in H.
    rewrite (last_token _ _ _ Hpre Ht Hpost) in H.
    unfold Py.decode_utf8 in H.
    destruct (Py.utf8_valid t) eqn:Hu; [discriminate|].
    injection H as <-. split; [reflexivity|].
    destruct (all_chars is_ascii t) eqn:Ha; [|reflexivity].
    rewrite (ascii_utf8_valid _ Ha) in Hu. discriminate. }
  split; [split|].
  - intros H.
    destruct (blank_or_last_token out)
      as [Hb | (pre & t & post & -> & Hpre & Ht & Hpost)]; [assumption|].
    destruct (Hdec _ _ _ _ Hpre Ht Hpost H) as [E _]. discriminate.
  - intros Hb. unfold suffix_of_output.
    now rewrite (bytes_split_blank _ Hb).
  - intros e H.
    destruct (blank_or_last_token out)
      as [Hb | (pre & t & post & -> & Hpre & Ht & Hpost)].
    + left. unfold suffix_of_output in H.
      rewrite (bytes_split_blank _ Hb) in H. simpl in H. congruence.
    + right. destruct (Hdec _ _ _ _ Hpre Ht Hpost H) as [E Ha].
      split; [assumption|]. now exists pre, t, post.
Qed.

Lemma suffix_errors_witness :
  Py.IndexError = Py.IndexError
  \/ (Py.IndexError = Py.UnicodeDecodeError
      /\ exists pre t post,
          " " ++ nl = pre ++ t ++ post /\ ends_blank pre = true
          /\ is_token t = true /\ blank post = true
          /\ all_chars is_ascii t = false).
Proof.
  apply (proj2 (suffix_errors (" " ++ nl)) Py.IndexError).
  reflexivity.
Defined.

(** ** More on the job file *)








(** ** The lines of the job script *)

Lemma has_char_app (c : ascii) (a b : string) :
  has_char c (a ++ b) = has_char c a || has_char c b.
Proof.
  induction a as [|x a IH]; simpl; [reflexivity|].
  now rewrite IH, orb_assoc.
Qed.

Lemma has_char_join (c : ascii) (sep : string) (l : list string) :
  has_char c sep = false ->
  Forall (fun x => has_char c x = false) l ->
  has_char c (Py.join sep l) = false.
Proof.
  intros Hsep. induction 1 as [|x l Hx Hl IH]; [reflexivity|].
  cbn [Py.join]. destruct l; [assumption|].
  now rewrite !has_char_app, Hx, Hsep, IH.
Qed.

Lemma split_join (c : ascii) (l : list string) :
  l <> [] ->
  Forall (fun x => has_char c x = false) l ->
  Py.split c (Py.join (String c "") l) = l.
Proof.
  intros Hne H. induction H as [|x l Hx Hl IH]; [contradiction|].
  cbn [Py.join]. destruct l as [|y r].
  - now apply split_no_sep.
  - change (x ++ String c "" ++ Py.join (String c "") (y :: r))
      with (x ++ String c (Py.join (String c "") (y :: r))).
    rewrite split_app, (split_no_sep _ _ Hx), IH; [reflexivity|discriminate].
Qed.

Lemma join_snoc_empty (sep : string) (l : list string) :
  l <> [] -> Py.join sep (l ++ [""]) = Py.join sep l ++ sep.
Proof.
  intros Hne. induction l as [|x l IH]; [contradiction|].
  destruct l as [|y r].
  - simpl. now rewrite append_empty_r.
  - change (Py.join sep ((x :: y :: r) ++ [""]))
      with (x ++ sep ++ Py.join sep ((y :: r) ++ [""])).
    rewrite IH by discriminate. cbn [Py.join].
    now rewrite !append_assoc.
Qed.

(** X9: when basename, walltime and arguments hold no newline, cutting
    the job script at newlines gives back its nine lines, six of them
    #SBATCH directives, and an empty piece after the last newline:
    nothing that is passed in can add or break a line. *)
Theorem job_text_lines (basename h : string) (args : list string) :
  has_char "010" basename = false ->
  has_char "010" h = false ->
  Forall (fun a => has_char "010" a = false) args ->
  exists text,
    job_text basename h args = inr text
    /\ Py.split "010" text = (job_lines basename h args ++ [""])%list
    /\ List.length
         (filter (String.prefix "#SBATCH --") (Py.split "010" text)) = 6.
Proof.
  intros Hb Hh Ha. exists (rendered basename h args).
  split; [apply job_text_rendered|].
  assert (Hj : has_char "010" (Py.join " " args) = false)
    by (apply has_char_join; [reflexivity | assumption]).
  assert (E : Py.split "010" (rendered basename h args)
              = (job_lines basename h args ++ [""])%list).
  { unfold rendered. change nl with (String "010" "").
    rewrite <- join_snoc_empty by discriminate.
    apply split_join; [discriminate|].
    unfold job_lines. cbn [app].
    repeat constructor; rewrite ?has_char_app, ?Hb, ?Hh, ?Hj; reflexivity. }
  split; [exact E|]. rewrite E. unfold job_lines. cbn [app filter].
  assert (Hp : forall lit rest,
             String.prefix "#SBATCH --" ("#SBATCH --" ++ lit ++ rest) = true)
    by (intros; apply prefix_app; eexists; reflexivity).
  change ("#SBATCH --output " ++ basename ++ ".out")
    with ("#SBATCH --" ++ "output " ++ basename ++ ".out").
  change ("#SBATCH --error " ++ basename ++ ".err")
    with ("#SBATCH --" ++ "error " ++ basename ++ ".err").
  change ("#SBATCH --time " ++ h ++ ":00:00")
    with ("#SBATCH --" ++ "time " ++ h ++ ":00:00").
  rewrite !Hp. reflexivity.
Qed.

Lemma job_text_lines_witness :
  exists text,
    job_text "networkfoo.bar" "5" ["alpha"; "beta"] = inr text
    /\ Py.split "010" text
       = (job_lines "networkfoo.bar" "5" ["alpha"; "beta"] ++ [""])%list
    /\ List.length
         (filter (String.prefix "#SBATCH --") (Py.split "010" text)) = 6.
Proof.
  apply (@job_text_lines "networkfoo.bar" "5" ["alpha"; "beta"]);
    [reflexivity | reflexivity | repeat constructor].
Defined.

(** ** The run as a whole *)

Lemma last_item_error (A : Type) (l : list A) (e : Py.exn) :
  Py.last_item l = inl e -> e = Py.IndexError.
Proof.
  induction l as [|x l IH]; simpl; [congruence|].
  destruct l; [discriminate | exact IH].
Qed.

Lemma suffix_of_output_error (out : string) (e : Py.exn) :
  suffix_of_output out = inl e ->
  e = Py.IndexError \/ e = Py.UnicodeDecodeError.
Proof.
  unfold suffix_of_output.
  destruct (Py.last_item (Py.bytes_split out)) as [e'|t] eqn:L.
  - intros H. injection H as <-. left. exact (last_item_error _ L).
  - unfold Py.decode_utf8. destruct (Py.utf8_valid t); [discriminate|].
    intros H. injection H as <-. now right.
Qed.

(** A run either stops before it looks at the file system, with status
    1, or gets to the job writer with its inputs, its suffix and the
    three events of build and query behind it. *)
Lemma main_stages (w : world) (argv : list string) :
  (exists t e, main w argv = (t, inl e)
               /\ filter is_fs t = [] /\ ~ In GetFqdn t
               /\ exit_status (main w argv) = 1%Z)
  \/ (exists i out s,
         process_inputs argv = ([], inr i)
         /\ run_shell w (suffix_cmd (sim_args i)) = Output 0 out
         /\ suffix_of_output out = inr s
         /\ main w argv
            = let jf := job_path (basename_of s) in
              let rest :=
                write_job w jf (rendered (basename_of s)
                                         (walltime_in_hours i) (sim_args i)) ;;;
                submit w jf in
              (Print ("building project" ++ nl)
                 :: Call (build_argv (whide i))
                 :: CheckOutputShell (suffix_cmd (sim_args i))
                 :: fst rest,
               snd rest)).
Proof.
  destruct (process_inputs_cases argv) as [[i P] | (t & e & P & Ht)].
  2:{ left.
      destruct (Nat.lt_ge_cases (List.length argv) 2) as [Hlt|Hge].
      - unfold main. rewrite (process_inputs_short _ Hlt).
        destruct argv; do 2 eexists; (split; [reflexivity|]);
          repeat split; simpl; intuition discriminate.
      - pose proof P as P'. rewrite (process_inputs_long _ Hge) in P'.
        injection P' as <- He.
        assert (e = Py.IndexError).
        { destruct (strip_flag_cases argv)
            as [(_ & l1 & l2 & _ & _ & R) | (_ & R)];
            rewrite R in He;
            match type of He with
            | match Py.item ?l 1 with _ => _ end = _ =>
                unfold Py.item in He; destruct (nth_error l 1)
            end; congruence. }
        subst e. unfold main. rewrite P. do 2 eexists.
        split; [reflexivity|]. now repeat split. }
  rewrite (main_parsed w _ P).
  destruct (run_argv w (build_argv (whide i))) as [rcb|].
  2:{ left. do 2 eexists. split; [reflexivity|].
      repeat split. simpl. intuition discriminate. }
  destruct (after_build_failed w (walltime_in_hours i) (sim_args i))
    as [(e & E & _) | (out & s & Hq & Hs)].
  - left. rewrite E. do 2 eexists. split; [reflexivity|].
    split; [reflexivity|]. split; [simpl; intuition discriminate|].
    unfold after_build, check_output_shell in E.
    destruct (run_shell w (suffix_cmd (sim_args i))) as [rc out|].
    + destruct (Z.eqb rc 0).
      * cbn [emit bind ret app] in E.
        destruct (suffix_of_output out) as [e'|s] eqn:S.
        -- cbn in E. injection E as <-.
           destruct (suffix_of_output_error _ S); subst e'; reflexivity.
        -- exfalso. unfold lift in E. rewrite bind_ret, job_file_of_eq,
             bind_ret, job_text_rendered, bind_ret in E.
           rewrite write_job_eq, submit_eq in E.
           destruct (is_dir w job_dir), (makedirs_ok w job_dir),
             (write_ok w _); discriminate.
      * cbn in E. now injection E as <-.
    + cbn in E. now injection E as <-.
  - right. exists i, out, s. repeat split; try assumption.
    now rewrite (after_build_rendered w _ _ Hq Hs).
Qed.

(** X10: what a run does to the file system is at most: test whether
    [jobs] is a directory, create it when and only when it is not, and
    write one file, which it does only if the directory was there or
    could be created.  A run on a host that already has [jobs] never
    calls [makedirs]. *)
Theorem file_system_events (w : world) (argv : list string) :
  filter is_fs (trace (main w argv)) = []
  \/ exists p t,
      filter is_fs (trace (main w argv))
      = IsDir job_dir
          :: (if is_dir w job_dir then [WriteFile p t]
              else MakeDirs job_dir
                     :: (if makedirs_ok w job_dir then [WriteFile p t]
                         else [])).
Proof.
  destruct (main_stages w argv)
    as [(t & e & E & Hfs & _) | (i & out & s & _ & _ & _ & E)].
  - left. now rewrite E.
  - right. rewrite E. cbv zeta. rewrite write_job_eq, submit_eq.
    do 2 eexists.
    destruct (is_dir w job_dir), (makedirs_ok w job_dir),
      (write_ok w (job_path (basename_of s))); reflexivity.
Qed.

(** X11: the exit status is 0 or 1, never a return code of the build,
    the simulation or the submit command.  It is 0 only if the job file
    was written and the submit command was started, which is then the
    last thing the run did. *)
Theorem exit_status_zero_means_submitted (w : world) (argv : list string) :
  (exit_status (main w argv) = 0%Z \/ exit_status (main w argv) = 1%Z)
  /\ (exit_status (main w argv) = 0%Z ->
      exists pre job_file text rc,
        trace (main w argv)
        = (pre ++ [WriteFile job_file text; GetFqdn;
                   Call [submit_cmd_of (fqdn w); job_file]])%list
        /\ write_ok w job_file = true
        /\ run_argv w [submit_cmd_of (fqdn w); job_file] = Returned rc).
Proof.
  destruct (main_stages w argv)
    as [(t & e & E & _ & _ & St) | (i & out & s & _ & _ & _ & E)].
  - split; [now right|]. rewrite St. discriminate.
  - rewrite E. cbv zeta. rewrite write_job_eq, submit_eq.
    set (pre := (Print ("building project" ++ nl)
                   :: Call (build_argv (whide i))
                   :: CheckOutputShell (suffix_cmd (sim_args i))
                   :: IsDir job_dir
                   :: (if is_dir w job_dir then [] else [MakeDirs job_dir]))).
    destruct (is_dir w job_dir || makedirs_ok w job_dir) eqn:Hdir;
      [|split; [now right | discriminate]].
    destruct (write_ok w (job_path (basename_of s))) eqn:Hw;
      [|split; [now right | discriminate]].
    destruct (run_argv w [submit_cmd_of (fqdn w); job_path (basename_of s)])
      as [rc|] eqn:Hr; [|split; [now right | discriminate]].
    split; [now left|]. intros _.
    exists pre, (job_path (basename_of s)),
      (rendered (basename_of s) (walltime_in_hours i) (sim_args i)), rc.
    split; [|now split].
    unfold bind, trace. cbn [fst snd]. subst pre. cbn [app].
    now rewrite <- !app_assoc.
Qed.

Lemma exit_status_zero_means_submitted_witness :
  exists pre job_file text rc,
    trace (main laptop ["submit-simulation.py"; "5"; "alpha"])
    = (pre ++ [WriteFile job_file text; GetFqdn;
               Call [submit_cmd_of (fqdn laptop); job_file]])%list
    /\ write_ok laptop job_file = true
    /\ run_argv laptop [submit_cmd_of (fqdn laptop); job_file] = Returned rc.
Proof.
  apply (proj2 (exit_status_zero_means_submitted laptop
                  ["submit-simulation.py"; "5"; "alpha"])).
  reflexivity.
Defined.

Lemma process_inputs_program_name (p1 p2 : string) (rest : list string) :
  p1 <> whide_flag -> p2 <> whide_flag ->
  process_inputs (p1 :: rest) = process_inputs (p2 :: rest).
Proof.
  intros H1 H2. destruct rest as [|a rest]; [reflexivity|].
  rewrite !process_inputs_long by (simpl; lia).
  assert (S : forall p l, p <> whide_flag ->
            strip_flag (p :: l)
            = match strip_flag l with
              | inl e => inl e
              | inr (wh, r) => inr (wh, p :: r)
              end).
  { intros p l Hp. unfold strip_flag, Py.contains_item.
    cbn [existsb Py.remove].
    assert (E : String.eqb whide_flag p = false)
      by (apply String.eqb_neq; congruence).
    rewrite E. cbn [orb].
    destruct (existsb (String.eqb whide_flag) l); [|reflexivity].
    now destruct (Py.remove whide_flag l). }
  rewrite (S p1 _ H1), (S p2 _ H2).
  destruct (strip_flag (a :: rest)) as [e | [wh r]]; reflexivity.
Qed.

(** X12: the name the script was started under is never used, as long as
    it is not the marker itself: two argument vectors that differ in
    their first element only give the same run, usage line included,
    which shows its placeholders instead of the program name. *)
Theorem program_name_unused (w : world) (p1 p2 : string)
  (rest : list string) :
  p1 <> whide_flag -> p2 <> whide_flag ->
  main w (p1 :: rest) = main w (p2 :: rest).
Proof.
  intros H1 H2. unfold main.
  now rewrite (process_inputs_program_name rest H1 H2).
Qed.

Lemma program_name_unused_witness :
  main cluster ["submit-simulation.py"]
  = main cluster ["./submit-simulation.py"].
Proof.
  apply (@program_name_unused cluster
           "submit-simulation.py" "./submit-simulation.py" []);
    discriminate.
Defined.
